(** * generate_credit_data.py: the synthetic credit-profile pipeline

    A shallow embedding of [src/generate_credit_data.py].

    Conventions of the embedding.
    - A pandas column of floats is a rational ([Q]): the arithmetic of
      the script (products, quotients, comparisons, clipping) is taken
      exactly, the rounding of binary64 is not modelled.  Integer
      columns are [Z], string columns are [string].
    - Every call into [np.random] becomes an explicit argument (a
      "draw").  What numpy promises about a draw (for instance that
      [np.random.uniform(a, b)] lies in [[a, b)]) is a separate
      predicate, used as a hypothesis only where a statement needs it.
    - A dictionary is a [gmap string Q]; indexing it with a missing key
      raises [KeyError], modelled by [None].
    - The DataFrame is a [list Row]; the index label of a row is its
      position.  Every statement of the script between two table-wide
      steps works row by row, so it is embedded as a function on one
      row and the table is mapped over. *)

From Stdlib Require Import ZArith QArith Qminmax Qround Lqa Lia.
From stdpp Require Import base option list strings gmap fin_maps.

Local Open Scope Q_scope.
Local Open Scope string_scope.

(** ** Numbers *)

Module Num.

(** [Series.clip(lower, upper)]: the lower bound is applied first,
    then the upper one. *)
Definition clip (lower upper x : Q) : Q := Qmin (Qmax x lower) upper.

(** [Series.clip] on the integer column. *)
Definition clipZ (lower upper x : Z) : Z := Z.min (Z.max x lower) upper.

(** Boolean comparisons, as the script's [<], [<=] and [==]. *)
Definition Qltb (a b : Q) : bool := negb (Qle_bool b a).
Definition Qleb (a b : Q) : bool := Qle_bool a b.
Definition Qeqb (a b : Q) : bool := Qeq_bool a b.

(** Python's [int(x)] on a float: truncation towards zero. *)
Definition int_of (x : Q) : Z := Z.quot (Qnum x) (Z.pos (Qden x)).

End Num.

Import Num.

(** ** pandas.cut *)

Module Pandas.

(** [bins.searchsorted(x, side='left')] on a sorted list of edges: the
    number of edges strictly below [x]. *)
Definition searchsorted_left (bins : list Q) (x : Q) : nat :=
  length (filter (fun b => Qltb b x = true) bins).

(** [pd.cut(x, bins, labels=labels, include_lowest=True)] with the
    default [right=True]: the edges are located with
    [searchsorted(side='left')], a value equal to the first edge is
    moved into the first interval, and a value outside the edges has no
    category (NaN, here [None]). *)
Definition cut (bins : list Q) (labels : list string) (x : Q) : option string :=
  let ids := searchsorted_left bins x in
  let ids := match bins with
             | b0 :: _ => if Qeqb x b0 then 1%nat else ids
             | [] => ids
             end in
  if decide (ids = 0%nat) then None
  else if decide (ids = length bins) then None
  else labels !! (ids - 1)%nat.

End Pandas.

(** ** numpy.random *)

Module NumpyRandom.

(** [np.random.uniform(low, high)], [np.random.randint(low, high)] and
    [np.random.normal(mean, sd)] return the draw they are given; the
    range numpy promises is stated apart. *)
Definition uniform (low high draw : Q) : Q := draw.
Definition randint (low high draw : Z) : Z := draw.
Definition normal (mean sd draw : Q) : Q := draw.

Definition uniform_ok (low high draw : Q) : Prop := low <= draw /\ draw < high.
Definition randint_ok (low high draw : Z) : Prop := (low <= draw < high)%Z.

(** The draw behind a weighted [np.random.choice]: [random_sample()],
    a number of [[0, 1)]. *)
Definition sample_ok (u : Q) : Prop := 0 <= u /\ u < 1.

Fixpoint cumsum_from (acc : Q) (p : list Q) : list Q :=
  match p with
  | [] => []
  | x :: p' => (acc + x) :: cumsum_from (acc + x) p'
  end.

(** [cdf = p.cumsum(); cdf /= cdf[-1]]. *)
Definition cdf (p : list Q) : list Q :=
  let c := cumsum_from 0 p in
  let total := default 0 (last c) in
  map (fun x => x / total) c.

(** [cdf.searchsorted(u, side='right')]: the number of entries that
    are at most [u]. *)
Definition searchsorted_right (a : list Q) (u : Q) : nat :=
  length (filter (fun b => Qleb b u = true) a).

(** [np.random.choice(a, p=p)] for one element: the element at the
    position found in the cumulated weights.  A position past the end
    is an [IndexError]. *)
Definition choice {A : Type} (a : list A) (p : list Q) (u : Q) : option A :=
  a !! searchsorted_right (cdf p) u.

(** [np.random.choice(a, size=k, replace=False)] and the unweighted
    [np.random.choice(a, size=k)] return the list they are given; what
    numpy promises about it is stated apart. *)
Definition choice_no_replace {A : Type} (a : list A) (size : nat)
    (draw : list A) : list A := draw.
Definition choice_many {A : Type} (a : list A) (size : nat)
    (draw : list A) : list A := draw.

Definition choice_no_replace_ok {A : Type} (a : list A) (size : nat)
    (draw : list A) : Prop :=
  length draw = size /\ NoDup draw /\ Forall (fun x => x ∈ a) draw.
Definition choice_many_ok {A : Type} (a : list A) (size : nat)
    (draw : list A) : Prop :=
  length draw = size /\ Forall (fun x => x ∈ a) draw.

End NumpyRandom.

Import NumpyRandom.

(** ** datetime *)

(** A [datetime] is a number of microseconds on the clock of the
    machine; a [timedelta] is a difference of two. *)
Definition datetime : Type := Z.

Module Datetime.

Definition microseconds_per_day : Z := 86400000000.

(** [timedelta(days=d)]. *)
Definition timedelta (days : Z) : Z := (days * microseconds_per_day)%Z.

(** The [.days] attribute: whole days, rounded down. *)
Definition days (delta : Z) : Z := (delta `div` microseconds_per_day)%Z.

End Datetime.

(** ** Constants and lookup tables (lines 45-77) *)

Definition mean_age : Q := 40.
Definition std_dev_age : Q := 12.
Definition mean_income : Q := 75000.
Definition std_dev_income : Q := 30000.

Definition regions : list string := ["Northeast"; "Midwest"; "South"; "West"].

Definition income_adjustment : gmap string Q :=
  list_to_map [("Northeast", 11 # 10); ("Midwest", 9 # 10);
               ("South", 8 # 10); ("West", 1)].

Definition regional_cost_of_living : gmap string Q :=
  list_to_map [("Northeast", 12 # 10); ("Midwest", 8 # 10);
               ("South", 9 # 10); ("West", 11 # 10)].

Definition education_income_multiplier : gmap string Q :=
  list_to_map [("Less than High School", 6 # 10); ("High School", 8 # 10);
               ("Associate's Degree", 1); ("Bachelor's Degree", 12 # 10);
               ("Master's Degree", 14 # 10); ("Doctorate", 16 # 10)].

Definition employment_income_multiplier : gmap string Q :=
  list_to_map [("Full-Time", 1); ("Part-Time", 6 # 10);
               ("Self-Employed", 9 # 10); ("Unemployed", 2 # 10);
               ("Retired", 7 # 10)].

(** The label lists the base sampler draws from (lines 85-87). *)
Definition education_levels : list string :=
  ["Less than High School"; "High School"; "Associate's Degree";
   "Bachelor's Degree"; "Master's Degree"; "Doctorate"].
Definition employment_statuses : list string :=
  ["Full-Time"; "Part-Time"; "Self-Employed"; "Unemployed"; "Retired"].

(** ** One row of the DataFrame *)

(** The columns of the table.  [DTI], [Total_Debt],
    [Credit_History_Length] and [Credit_Score_Category] are created by
    the statement that first assigns them; before it their content is
    whatever the base row carries and is never read. *)
Record Row : Type := mkRow {
  Customer_ID : string;
  Name : string;
  Age : Z;
  Gender : string;
  Region : string;
  Education_Level : string;
  Employment_Status : string;
  Income : Q;
  Credit_Score : Q;
  Existing_Debt : Q;
  Credit_Card_Debt : Q;
  Mortgage_Debt : Q;
  Auto_Loan_Debt : Q;
  Loan_Balance : Q;
  Credit_Inquiries_Last_6_Months : Z;
  Bankruptcy_History : string;
  Bankruptcy_Date : option datetime;
  Delinquency_History : Z;
  Credit_Card_Utilization : Q;
  Years_At_Current_Address : Z;
  Dependents : Z;
  Payment_History : string;
  Account_Age : Z;
  Years_With_Employer : Z;
  Housing : string;
  Housing_Payment : Q;
  DTI : Q;
  Total_Debt : Q;
  Credit_History_Length : Z;
  Credit_Score_Category : option string
}.

Definition set_Age (v : Z) (r : Row) : Row :=
  mkRow (Customer_ID r) (Name r) v (Gender r) (Region r) (Education_Level r)
    (Employment_Status r) (Income r) (Credit_Score r) (Existing_Debt r)
    (Credit_Card_Debt r) (Mortgage_Debt r) (Auto_Loan_Debt r)
    (Loan_Balance r) (Credit_Inquiries_Last_6_Months r)
    (Bankruptcy_History r) (Bankruptcy_Date r) (Delinquency_History r)
    (Credit_Card_Utilization r) (Years_At_Current_Address r) (Dependents r)
    (Payment_History r) (Account_Age r) (Years_With_Employer r) (Housing r)
    (Housing_Payment r) (DTI r) (Total_Debt r) (Credit_History_Length r)
    (Credit_Score_Category r).

Definition set_Income (v : Q) (r : Row) : Row :=
  mkRow (Customer_ID r) (Name r) (Age r) (Gender r) (Region r)
    (Education_Level r) (Employment_Status r) v (Credit_Score r)
    (Existing_Debt r) (Credit_Card_Debt r) (Mortgage_Debt r)
    (Auto_Loan_Debt r) (Loan_Balance r) (Credit_Inquiries_Last_6_Months r)
    (Bankruptcy_History r) (Bankruptcy_Date r) (Delinquency_History r)
    (Credit_Card_Utilization r) (Years_At_Current_Address r) (Dependents r)
    (Payment_History r) (Account_Age r) (Years_With_Employer r) (Housing r)
    (Housing_Payment r) (DTI r) (Total_Debt r) (Credit_History_Length r)
    (Credit_Score_Category r).

Definition set_Credit_Score (v : Q) (r : Row) : Row :=
  mkRow (Customer_ID r) (Name r) (Age r) (Gender r) (Region r)
    (Education_Level r) (Employment_Status r) (Income r) v (Existing_Debt r)
    (Credit_Card_Debt r) (Mortgage_Debt r) (Auto_Loan_Debt r)
    (Loan_Balance r) (Credit_Inquiries_Last_6_Months r)
    (Bankruptcy_History r) (Bankruptcy_Date r) (Delinquency_History r)
    (Credit_Card_Utilization r) (Years_At_Current_Address r) (Dependents r)
    (Payment_History r) (Account_Age r) (Years_With_Employer r) (Housing r)
    (Housing_Payment r) (DTI r) (Total_Debt r) (Credit_History_Length r)
    (Credit_Score_Category r).

Definition set_Existing_Debt (v : Q) (r : Row) : Row :=
  mkRow (Customer_ID r) (Name r) (Age r) (Gender r) (Region r)
    (Education_Level r) (Employment_Status r) (Income r) (Credit_Score r) v
    (Credit_Card_Debt r) (Mortgage_Debt r) (Auto_Loan_Debt r)
    (Loan_Balance r) (Credit_Inquiries_Last_6_Months r)
    (Bankruptcy_History r) (Bankruptcy_Date r) (Delinquency_History r)
    (Credit_Card_Utilization r) (Years_At_Current_Address r) (Dependents r)
    (Payment_History r) (Account_Age r) (Years_With_Employer r) (Housing r)
    (Housing_Payment r) (DTI r) (Total_Debt r) (Credit_History_Length r)
    (Credit_Score_Category r).

Definition set_Credit_Card_Debt (v : Q) (r : Row) : Row :=
  mkRow (Customer_ID r) (Name r) (Age r) (Gender r) (Region r)
    (Education_Level r) (Employment_Status r) (Income r) (Credit_Score r)
    (Existing_Debt r) v (Mortgage_Debt r) (Auto_Loan_Debt r)
    (Loan_Balance r) (Credit_Inquiries_Last_6_Months r)
    (Bankruptcy_History r) (Bankruptcy_Date r) (Delinquency_History r)
    (Credit_Card_Utilization r) (Years_At_Current_Address r) (Dependents r)
    (Payment_History r) (Account_Age r) (Years_With_Employer r) (Housing r)
    (Housing_Payment r) (DTI r) (Total_Debt r) (Credit_History_Length r)
    (Credit_Score_Category r).

Definition set_Mortgage_Debt (v : Q) (r : Row) : Row :=
  mkRow (Customer_ID r) (Name r) (Age r) (Gender r) (Region r)
    (Education_Level r) (Employment_Status r) (Income r) (Credit_Score r)
    (Existing_Debt r) (Credit_Card_Debt r) v (Auto_Loan_Debt r)
    (Loan_Balance r) (Credit_Inquiries_Last_6_Months r)
    (Bankruptcy_History r) (Bankruptcy_Date r) (Delinquency_History r)
    (Credit_Card_Utilization r) (Years_At_Current_Address r) (Dependents r)
    (Payment_History r) (Account_Age r) (Years_With_Employer r) (Housing r)
    (Housing_Payment r) (DTI r) (Total_Debt r) (Credit_History_Length r)
    (Credit_Score_Category r).

Definition set_Auto_Loan_Debt (v : Q) (r : Row) : Row :=
  mkRow (Customer_ID r) (Name r) (Age r) (Gender r) (Region r)
    (Education_Level r) (Employment_Status r) (Income r) (Credit_Score r)
    (Existing_Debt r) (Credit_Card_Debt r) (Mortgage_Debt r) v
    (Loan_Balance r) (Credit_Inquiries_Last_6_Months r)
    (Bankruptcy_History r) (Bankruptcy_Date r) (Delinquency_History r)
    (Credit_Card_Utilization r) (Years_At_Current_Address r) (Dependents r)
    (Payment_History r) (Account_Age r) (Years_With_Employer r) (Housing r)
    (Housing_Payment r) (DTI r) (Total_Debt r) (Credit_History_Length r)
    (Credit_Score_Category r).

Definition set_Bankruptcy_Date (v : option datetime) (r : Row) : Row :=
  mkRow (Customer_ID r) (Name r) (Age r) (Gender r) (Region r)
    (Education_Level r) (Employment_Status r) (Income r) (Credit_Score r)
    (Existing_Debt r) (Credit_Card_Debt r) (Mortgage_Debt r)
    (Auto_Loan_Debt r) (Loan_Balance r) (Credit_Inquiries_Last_6_Months r)
    (Bankruptcy_History r) v (Delinquency_History r)
    (Credit_Card_Utilization r) (Years_At_Current_Address r) (Dependents r)
    (Payment_History r) (Account_Age r) (Years_With_Employer r) (Housing r)
    (Housing_Payment r) (DTI r) (Total_Debt r) (Credit_History_Length r)
    (Credit_Score_Category r).

Definition set_Payment_History (v : string) (r : Row) : Row :=
  mkRow (Customer_ID r) (Name r) (Age r) (Gender r) (Region r)
    (Education_Level r) (Employment_Status r) (Income r) (Credit_Score r)
    (Existing_Debt r) (Credit_Card_Debt r) (Mortgage_Debt r)
    (Auto_Loan_Debt r) (Loan_Balance r) (Credit_Inquiries_Last_6_Months r)
    (Bankruptcy_History r) (Bankruptcy_Date r) (Delinquency_History r)
    (Credit_Card_Utilization r) (Years_At_Current_Address r) (Dependents r)
    v (Account_Age r) (Years_With_Employer r) (Housing r)
    (Housing_Payment r) (DTI r) (Total_Debt r) (Credit_History_Length r)
    (Credit_Score_Category r).

Definition set_Account_Age (v : Z) (r : Row) : Row :=
  mkRow (Customer_ID r) (Name r) (Age r) (Gender r) (Region r)
    (Education_Level r) (Employment_Status r) (Income r) (Credit_Score r)
    (Existing_Debt r) (Credit_Card_Debt r) (Mortgage_Debt r)
    (Auto_Loan_Debt r) (Loan_Balance r) (Credit_Inquiries_Last_6_Months r)
    (Bankruptcy_History r) (Bankruptcy_Date r) (Delinquency_History r)
    (Credit_Card_Utilization r) (Years_At_Current_Address r) (Dependents r)
    (Payment_History r) v (Years_With_Employer r) (Housing r)
    (Housing_Payment r) (DTI r) (Total_Debt r) (Credit_History_Length r)
    (Credit_Score_Category r).

Definition set_Years_With_Employer (v : Z) (r : Row) : Row :=
  mkRow (Customer_ID r) (Name r) (Age r) (Gender r) (Region r)
    (Education_Level r) (Employment_Status r) (Income r) (Credit_Score r)
    (Existing_Debt r) (Credit_Card_Debt r) (Mortgage_Debt r)
    (Auto_Loan_Debt r) (Loan_Balance r) (Credit_Inquiries_Last_6_Months r)
    (Bankruptcy_History r) (Bankruptcy_Date r) (Delinquency_History r)
    (Credit_Card_Utilization r) (Years_At_Current_Address r) (Dependents r)
    (Payment_History r) (Account_Age r) v (Housing r) (Housing_Payment r)
    (DTI r) (Total_Debt r) (Credit_History_Length r)
    (Credit_Score_Category r).

Definition set_Housing_Payment (v : Q) (r : Row) : Row :=
  mkRow (Customer_ID r) (Name r) (Age r) (Gender r) (Region r)
    (Education_Level r) (Employment_Status r) (Income r) (Credit_Score r)
    (Existing_Debt r) (Credit_Card_Debt r) (Mortgage_Debt r)
    (Auto_Loan_Debt r) (Loan_Balance r) (Credit_Inquiries_Last_6_Months r)
    (Bankruptcy_History r) (Bankruptcy_Date r) (Delinquency_History r)
    (Credit_Card_Utilization r) (Years_At_Current_Address r) (Dependents r)
    (Payment_History r) (Account_Age r) (Years_With_Employer r) (Housing r)
    v (DTI r) (Total_Debt r) (Credit_History_Length r)
    (Credit_Score_Category r).

Definition set_DTI (v : Q) (r : Row) : Row :=
  mkRow (Customer_ID r) (Name r) (Age r) (Gender r) (Region r)
    (Education_Level r) (Employment_Status r) (Income r) (Credit_Score r)
    (Existing_Debt r) (Credit_Card_Debt r) (Mortgage_Debt r)
    (Auto_Loan_Debt r) (Loan_Balance r) (Credit_Inquiries_Last_6_Months r)
    (Bankruptcy_History r) (Bankruptcy_Date r) (Delinquency_History r)
    (Credit_Card_Utilization r) (Years_At_Current_Address r) (Dependents r)
    (Payment_History r) (Account_Age r) (Years_With_Employer r) (Housing r)
    (Housing_Payment r) v (Total_Debt r) (Credit_History_Length r)
    (Credit_Score_Category r).

Definition set_Total_Debt (v : Q) (r : Row) : Row :=
  mkRow (Customer_ID r) (Name r) (Age r) (Gender r) (Region r)
    (Education_Level r) (Employment_Status r) (Income r) (Credit_Score r)
    (Existing_Debt r) (Credit_Card_Debt r) (Mortgage_Debt r)
    (Auto_Loan_Debt r) (Loan_Balance r) (Credit_Inquiries_Last_6_Months r)
    (Bankruptcy_History r) (Bankruptcy_Date r) (Delinquency_History r)
    (Credit_Card_Utilization r) (Years_At_Current_Address r) (Dependents r)
    (Payment_History r) (Account_Age r) (Years_With_Employer r) (Housing r)
    (Housing_Payment r) (DTI r) v (Credit_History_Length r)
    (Credit_Score_Category r).

Definition set_Credit_History_Length (v : Z) (r : Row) : Row :=
  mkRow (Customer_ID r) (Name r) (Age r) (Gender r) (Region r)
    (Education_Level r) (Employment_Status r) (Income r) (Credit_Score r)
    (Existing_Debt r) (Credit_Card_Debt r) (Mortgage_Debt r)
    (Auto_Loan_Debt r) (Loan_Balance r) (Credit_Inquiries_Last_6_Months r)
    (Bankruptcy_History r) (Bankruptcy_Date r) (Delinquency_History r)
    (Credit_Card_Utilization r) (Years_At_Current_Address r) (Dependents r)
    (Payment_History r) (Account_Age r) (Years_With_Employer r) (Housing r)
    (Housing_Payment r) (DTI r) (Total_Debt r) v (Credit_Score_Category r).

Definition set_Credit_Score_Category (v : option string) (r : Row) : Row :=
  mkRow (Customer_ID r) (Name r) (Age r) (Gender r) (Region r)
    (Education_Level r) (Employment_Status r) (Income r) (Credit_Score r)
    (Existing_Debt r) (Credit_Card_Debt r) (Mortgage_Debt r)
    (Auto_Loan_Debt r) (Loan_Balance r) (Credit_Inquiries_Last_6_Months r)
    (Bankruptcy_History r) (Bankruptcy_Date r) (Delinquency_History r)
    (Credit_Card_Utilization r) (Years_At_Current_Address r) (Dependents r)
    (Payment_History r) (Account_Age r) (Years_With_Employer r) (Housing r)
    (Housing_Payment r) (DTI r) (Total_Debt r) (Credit_History_Length r) v.

(** ** The draws of one row *)

(** Everything the run draws for one row, in the order of the script,
    with the two readings of the clock the row sees. *)
Record Draws : Type := mkDraws {
  income_draw : Q;          (* line 113, np.random.normal *)
  employer_first : Z;       (* lines 124, 126, 128: the first randint *)
  employer_second : Z;      (* line 128: the second randint *)
  employer_pick : Q;        (* line 128: the weighted choice *)
  days_ago_draw : Z;        (* line 136 *)
  now_generate : datetime;  (* line 137, datetime.now() *)
  band_pick : Q;            (* line 153: the weighted choice of the row *)
  existing_rate : Q;        (* line 160 *)
  now_adjust : datetime;    (* line 169, datetime.now() *)
  card_rate : Q;            (* line 182 *)
  mortgage_rate : Q;        (* line 183 *)
  auto_rate : Q;            (* line 184 *)
  payment_pick : Q;         (* lines 198-202: the weighted choice *)
  account_age_draw : Z;     (* line 209 *)
  housing_draw : Z          (* lines 240, 242 *)
}.

(** ** Income (lines 113-119) *)

(** The lambda of line 113: the normal draw times the three looked-up
    multipliers, evaluated from left to right. *)
Definition derive_income (d : Draws) (r : Row) : option Q :=
  let base := normal mean_income std_dev_income (income_draw d) in
  a ← income_adjustment !! Region r;
  e ← education_income_multiplier !! Education_Level r;
  m ← employment_income_multiplier !! Employment_Status r;
  Some (base * a * e * m).

Definition income_step (d : Draws) (r : Row) : option Row :=
  v ← derive_income d r;
  Some (set_Income (clip 20000 500000 v) r).

(** ** Years with the employer (lines 122-130) *)

Definition generate_years_with_employer (d : Draws) (age : Z) : option Z :=
  if (age <? 30)%Z then Some (randint 0 5 (employer_first d))
  else if ((30 <=? age) && (age <? 50))%Z
       then Some (randint 0 15 (employer_first d))
  else choice [randint 0 15 (employer_first d);
               randint 15 30 (employer_second d)]
              [8 # 10; 2 # 10] (employer_pick d).

Definition employer_step (d : Draws) (r : Row) : option Row :=
  y ← generate_years_with_employer d (Age r);
  Some (set_Years_With_Employer y r).

(** ** Bankruptcy date (lines 133-141) *)

Definition generate_bankruptcy_date (d : Draws) (bankruptcy_history : string)
    : option datetime :=
  if decide (bankruptcy_history = "Yes") then
    let days_ago := randint 0 (365 * 20) (days_ago_draw d) in
    Some (now_generate d - Datetime.timedelta days_ago)%Z
  else None.

Definition bankruptcy_date_step (d : Draws) (r : Row) : Row :=
  set_Bankruptcy_Date (generate_bankruptcy_date d (Bankruptcy_History r)) r.

(** ** The base credit score (lines 144-157) *)

Definition score_weights : list Q :=
  [16 # 100; 18 # 100; 21 # 100; 25 # 100; 20 # 100].

(** The contract of the five uniform draws of lines 154-155. *)
Definition band_values_ok (bands : list Q) : Prop :=
  exists b1 b2 b3 b4 b5, bands = [b1; b2; b3; b4; b5] /\
    uniform_ok 300 579 b1 /\ uniform_ok 580 669 b2 /\
    uniform_ok 670 739 b3 /\ uniform_ok 740 799 b4 /\
    uniform_ok 800 850 b5.

(** Line 153 for one row.  The list [bands] holds the five floats the
    list display of lines 154-155 evaluates, once, before
    [np.random.choice] is entered; each row only picks among them. *)
Definition base_score_step (bands : list Q) (d : Draws) (r : Row) : option Row :=
  s ← choice bands score_weights (band_pick d);
  Some (set_Credit_Score s r).

(** The whole column of line 153. *)
Definition base_scores (bands : list Q) (picks : list Q) : list (option Q) :=
  map (fun u => choice bands score_weights u) picks.

(** ** First-pass debt and the score adjustments (lines 160-179) *)

Definition existing_debt_step (d : Draws) (r : Row) : Row :=
  set_Existing_Debt (Income r * uniform (1 # 10) (5 # 10) (existing_rate d)) r.

Definition first_dti_step (r : Row) : Row :=
  set_DTI (Existing_Debt r / Income r) r.

Definition score_dti_step (r : Row) : Row :=
  set_Credit_Score (Credit_Score r - DTI r * 50) r.

(** [(datetime.now() - bankruptcy_date).days / 365]. *)
Definition years_since (now : datetime) (bankruptcy_date : datetime) : Q :=
  inject_Z (Datetime.days (now - bankruptcy_date)) / 365.

Definition adjust_credit_score_by_bankruptcy (now : datetime)
    (credit_score : Q) (bankruptcy_date : option datetime) : Q :=
  match bankruptcy_date with
  | Some date =>
      let years_since_bankruptcy := years_since now date in
      if Qltb years_since_bankruptcy 7 then credit_score - 50
      else if Qleb 7 years_since_bankruptcy && Qltb years_since_bankruptcy 10
           then credit_score - 20
      else credit_score - 5
  | None => credit_score
  end.

Definition score_bankruptcy_step (d : Draws) (r : Row) : Row :=
  set_Credit_Score
    (adjust_credit_score_by_bankruptcy (now_adjust d) (Credit_Score r)
       (Bankruptcy_Date r)) r.

(** ** Debt composition (lines 182-188) *)

Definition card_debt_step (d : Draws) (r : Row) : Row :=
  set_Credit_Card_Debt (Income r * uniform (5 # 100) (2 # 10) (card_rate d)) r.

Definition mortgage_debt_step (d : Draws) (r : Row) : Row :=
  set_Mortgage_Debt
    (if decide (Housing r = "Own")
     then Income r * uniform 1 3 (mortgage_rate d) else 0) r.

Definition auto_debt_step (d : Draws) (r : Row) : Row :=
  set_Auto_Loan_Debt (Income r * uniform (1 # 10) (5 # 10) (auto_rate d)) r.

Definition total_debt_step (r : Row) : Row :=
  set_Total_Debt
    (Existing_Debt r + Credit_Card_Debt r + Mortgage_Debt r + Auto_Loan_Debt r) r.

Definition dti_step (r : Row) : Row :=
  set_DTI (Total_Debt r / Income r) r.

Definition debt_composition (d : Draws) (r : Row) : Row :=
  dti_step (total_debt_step (auto_debt_step d (mortgage_debt_step d
    (card_debt_step d r)))).

(** ** Payment history (lines 191-204) *)

Definition simulate_payment_history (pick : Q) (credit_score : Q)
    (delinquency_history : Z) (bankruptcy_history : string) : option string :=
  if decide (bankruptcy_history = "Yes") then Some "Poor"
  else if (3 <? delinquency_history)%Z then Some "Poor"
  else if Qleb 750 credit_score
       then choice ["Excellent"; "Good"] [7 # 10; 3 # 10] pick
  else if Qleb 650 credit_score && Qltb credit_score 750
       then choice ["Good"; "Average"] [4 # 10; 6 # 10] pick
  else choice ["Average"; "Poor"] [3 # 10; 7 # 10] pick.

Definition payment_history_step (d : Draws) (r : Row) : option Row :=
  p ← simulate_payment_history (payment_pick d) (Credit_Score r)
         (Delinquency_History r) (Bankruptcy_History r);
  Some (set_Payment_History p r).

(** ** Account age and credit history length (lines 207-216) *)

Definition generate_account_age (d : Draws) (age : Z) : Z :=
  if (18 <? age)%Z then randint 0 (Z.min (age - 18) age) (account_age_draw d)
  else 0%Z.

Definition account_age_step (d : Draws) (r : Row) : Row :=
  set_Account_Age (generate_account_age d (Age r)) r.

Definition history_length_step (r : Row) : Row :=
  set_Credit_History_Length (Z.max 0 (Age r - 18 - Account_Age r)) r.

(** ** The last two score adjustments (lines 219-230) *)

Definition score_history_step (r : Row) : Row :=
  set_Credit_Score
    (Credit_Score r + inject_Z (Credit_History_Length r) * (5 # 10)) r.

Definition adjust_credit_score_by_utilization (credit_score utilization : Q) : Q :=
  if Qltb (75 # 100) utilization then credit_score - 25
  else if Qltb (5 # 10) utilization then credit_score - 10
  else credit_score.

Definition score_utilization_step (r : Row) : Row :=
  set_Credit_Score
    (adjust_credit_score_by_utilization (Credit_Score r)
       (Credit_Card_Utilization r)) r.

(** ** Lines 113-230 for one row *)

Definition before_outliers (bands : list Q) (d : Draws) (r : Row) : option Row :=
  r ← income_step d r;
  r ← employer_step d r;
  let r := bankruptcy_date_step d r in
  r ← base_score_step bands d r;
  let r := existing_debt_step d r in
  let r := first_dti_step r in
  let r := score_dti_step r in
  let r := score_bankruptcy_step d r in
  let r := debt_composition d r in
  r ← payment_history_step d r;
  let r := account_age_step d r in
  let r := history_length_step r in
  let r := score_history_step r in
  Some (score_utilization_step r).

(** ** Outlier injection (lines 233-235) *)

(** The draws of the table-wide statements: the five floats of lines
    154-155 and the three arrays of lines 233-235. *)
Record TableDraws : Type := mkTableDraws {
  band_values : list Q;
  outliers_draw : list nat;
  income_factors : list Q;
  debt_factors : list Q
}.

(** [int(0.01 * len(df))].  The float [0.01] lies just above 1/100, by
    too little for the rounded product with a row count to cross an
    integer, so the exact product truncates to the same integer as the
    float one. *)
Definition outlier_count (n : nat) : nat :=
  Z.to_nat (int_of ((1 # 100) * inject_Z (Z.of_nat n))).

(** [df.loc[idx, col]]: the column read at the labels [idx]. *)
Definition loc_get (get : Row -> Q) (idx : list nat) (df : list Row) : list Q :=
  map (fun i => from_option get 0 (df !! i)) idx.

(** [df.loc[idx, col] = vals]: the k-th value is written to the row
    labelled by the k-th index. *)
Definition loc_set (set : Q -> Row -> Row) (idx : list nat) (vals : list Q)
    (df : list Row) : list Row :=
  foldl (fun df iv => alter (set iv.2) iv.1 df) df (zip idx vals).

(** [df.loc[idx, col] *= factors]: read, multiply element by element,
    write back. *)
Definition loc_imul (get : Row -> Q) (set : Q -> Row -> Row) (idx : list nat)
    (factors : list Q) (df : list Row) : list Row :=
  loc_set set idx (zip_with Qmult (loc_get get idx df) factors) df.

Definition inject_outliers (t : TableDraws) (df : list Row) : list Row :=
  let outliers_idx :=
    choice_no_replace (seq 0 (length df)) (outlier_count (length df))
      (outliers_draw t) in
  let df := loc_imul Income set_Income outliers_idx
              (choice_many [2; 3] (length outliers_idx) (income_factors t)) df in
  loc_imul Total_Debt set_Total_Debt outliers_idx
    (choice_many [3 # 2; 2] (length outliers_idx) (debt_factors t)) df.

(** What numpy promises about the three arrays, for a table of [n]
    rows. *)
Definition outliers_ok (t : TableDraws) (n : nat) : Prop :=
  choice_no_replace_ok (seq 0 n) (outlier_count n) (outliers_draw t) /\
  choice_many_ok [2; 3] (length (outliers_draw t)) (income_factors t) /\
  choice_many_ok [3 # 2; 2] (length (outliers_draw t)) (debt_factors t).

(** Two rows that agree on every column but [Income] and
    [Total_Debt]. *)
Definition same_but_income_and_total_debt (r r' : Row) : Prop :=
  r' = set_Total_Debt (Total_Debt r') (set_Income (Income r') r).

(** ** Housing payment (lines 238-244) *)

Definition generate_housing_payment (d : Draws) (housing : string) (income : Q)
    (region : string) (dependents : Z) : option Q :=
  if decide (housing = "Rent") then
    c ← regional_cost_of_living !! region;
    Some (inject_Z (randint 500 3500 (housing_draw d)) * c
          * (1 + inject_Z dependents * (1 # 10)))
  else
    c ← regional_cost_of_living !! region;
    Some (inject_Z (randint 900 4500 (housing_draw d)) * c
          * (1 + inject_Z dependents * (1 # 10))).

Definition housing_payment_step (d : Draws) (r : Row) : option Row :=
  h ← generate_housing_payment d (Housing r) (Income r) (Region r) (Dependents r);
  Some (set_Housing_Payment h r).

(** ** Final clips and the category (lines 247-255) *)

Definition clip_age_step (r : Row) : Row := set_Age (clipZ 18 70 (Age r)) r.
Definition clip_income_step (r : Row) : Row :=
  set_Income (clip 20000 400000 (Income r)) r.
Definition clip_score_step (r : Row) : Row :=
  set_Credit_Score (clip 300 850 (Credit_Score r)) r.
Definition clip_existing_debt_step (r : Row) : Row :=
  set_Existing_Debt (clip 0 (Income r * (5 # 10)) (Existing_Debt r)) r.

Definition final_clips (r : Row) : Row :=
  clip_existing_debt_step (clip_score_step (clip_income_step (clip_age_step r))).

Definition score_bins : list Q := [300; 580; 670; 740; 800; 850].
Definition score_labels : list string :=
  ["Very Poor"; "Fair"; "Good"; "Very Good"; "Excellent"].

Definition Credit_Score_Category_of (score : Q) : option string :=
  Pandas.cut score_bins score_labels score.

Definition category_step (r : Row) : Row :=
  set_Credit_Score_Category (Credit_Score_Category_of (Credit_Score r)) r.

(** Lines 238-255 for one row. *)
Definition after_outliers (d : Draws) (r : Row) : option Row :=
  r ← housing_payment_step d r;
  Some (category_step (final_clips r)).

(** ** The whole run (lines 110-255) *)

(** The table handed to [to_csv], from the base table (line 110) and
    the draws; [None] when some statement raises. *)
Definition generate (t : TableDraws) (base : list (Draws * Row))
    : option (list Row) :=
  df ← mapM (fun dr => before_outliers (band_values t) dr.1 dr.2) base;
  let df := inject_outliers t df in
  mapM (fun dr => after_outliers dr.1 dr.2) (zip (base.*1) df).

(** The income statement on the whole table (lines 113-119): it raises
    as soon as one row does. *)
Definition income_table_step (base : list (Draws * Row)) : option (list Row) :=
  mapM (fun dr => income_step dr.1 dr.2) base.

(** ** Contracts of the inputs *)

(** A base row whose three keyed columns were drawn by the base
    sampler (lines 85-87). *)
Definition from_base_sampler (r : Row) : Prop :=
  Region r ∈ regions /\ Education_Level r ∈ education_levels /\
  Employment_Status r ∈ employment_statuses.

(** What numpy and the clock promise about the draws of a base row. *)
Definition draws_ok (d : Draws) (r : Row) : Prop :=
  randint_ok 0 (if (Age r <? 30)%Z then 5 else 15) (employer_first d) /\
  randint_ok 15 30 (employer_second d) /\
  sample_ok (employer_pick d) /\
  randint_ok 0 (365 * 20) (days_ago_draw d) /\
  (now_generate d <= now_adjust d)%Z /\
  sample_ok (band_pick d) /\
  uniform_ok (1 # 10) (5 # 10) (existing_rate d) /\
  uniform_ok (5 # 100) (2 # 10) (card_rate d) /\
  uniform_ok 1 3 (mortgage_rate d) /\
  uniform_ok (1 # 10) (5 # 10) (auto_rate d) /\
  sample_ok (payment_pick d) /\
  ((18 < Age r)%Z ->
     randint_ok 0 (Z.min (Age r - 18) (Age r)) (account_age_draw d)) /\
  (if decide (Housing r = "Rent")
   then randint_ok 500 3500 (housing_draw d)
   else randint_ok 900 4500 (housing_draw d)).

(** ** The wording of the specification, where it departs from the code *)

Module Spec.


(** Rounding to the nearest integer, ties to the even one. *)
Definition round (x : Q) : Z :=
  let f := Qfloor x in
  let frac := x - inject_Z f in
  if Qltb frac (1 # 2) then f
  else if Qltb (1 # 2) frac then (f + 1)%Z
  else if Z.even f then f else (f + 1)%Z.

(** "exactly round(0.01 x N) rows". *)
Definition outlier_count (n : nat) : Z :=
  round ((1 # 100) * inject_Z (Z.of_nat n)).

End Spec.


(** ** Concrete rows and draws *)

Module Sample.

(** A base row as line 110 builds it: the placeholder columns hold
    zeros and the empty string. *)
Definition base_row (age : Z) (housing bankruptcy : string) (utilization : Q)
    : Row :=
  {| Customer_ID := "5f0c3e0a-7d0e-4c52-9a55-2a1c3a1d9b11";
     Name := "Dana Whitfield";
     Age := age; Gender := "Female"; Region := "West";
     Education_Level := "Bachelor's Degree";
     Employment_Status := "Full-Time";
     Income := 0; Credit_Score := 0; Existing_Debt := 0;
     Credit_Card_Debt := 0; Mortgage_Debt := 0; Auto_Loan_Debt := 0;
     Loan_Balance := 12500; Credit_Inquiries_Last_6_Months := 2;
     Bankruptcy_History := bankruptcy; Bankruptcy_Date := None;
     Delinquency_History := 1; Credit_Card_Utilization := utilization;
     Years_At_Current_Address := 6; Dependents := 2;
     Payment_History := ""; Account_Age := 0; Years_With_Employer := 0;
     Housing := housing; Housing_Payment := 0; DTI := 0; Total_Debt := 0;
     Credit_History_Length := 0; Credit_Score_Category := None |}.

(** Draws for such a row: the bankruptcy lies [days_ago] days back and
    the account age drawn is [account]. *)
Definition draws (days_ago account : Z) (band : Q) : Draws :=
  {| income_draw := 80000; employer_first := 3; employer_second := 20;
     employer_pick := 1 # 2; days_ago_draw := days_ago;
     now_generate := 1725408000000000%Z; band_pick := band;
     existing_rate := 2 # 10; now_adjust := 1725408000250000%Z;
     card_rate := 1 # 10; mortgage_rate := 2; auto_rate := 3 # 10;
     payment_pick := 1 # 2; account_age_draw := account;
     housing_draw := 1500 |}.

Definition bands : list Q := [450; 600; 700; 749; 820].

Definition owner : Row := base_row 45 "Own" "No" (3 # 10).
Definition tenant : Row := base_row 29 "Rent" "Yes" (8 # 10).

(** A customer whose sampled age is 80, with a credit account opened
    in the year of the draw. *)
Definition elder : Row := base_row 80 "Own" "No" (3 # 10).



Definition no_outliers : TableDraws :=
  {| band_values := bands; outliers_draw := [];
     income_factors := []; debt_factors := [] |}.

Definition small_table : list (Draws * Row) :=
  [(draws 100 5 (60 # 100), owner); (draws 3650 4 (20 # 100), tenant)].


Definition large_table : list (Draws * Row) :=
  replicate 200 (draws 100 5 (60 # 100), owner).

End Sample.

(** ** The sampled columns *)

(** Two base rows that agree on the columns lines 80-107 sample: every
    column but the placeholders and the columns created later. *)
Definition same_sampled_columns (r r' : Row) : Prop :=
  Customer_ID r = Customer_ID r' /\ Name r = Name r' /\ Age r = Age r' /\
  Gender r = Gender r' /\ Region r = Region r' /\
  Education_Level r = Education_Level r' /\
  Employment_Status r = Employment_Status r' /\
  Loan_Balance r = Loan_Balance r' /\
  Credit_Inquiries_Last_6_Months r = Credit_Inquiries_Last_6_Months r' /\
  Bankruptcy_History r = Bankruptcy_History r' /\
  Delinquency_History r = Delinquency_History r' /\
  Credit_Card_Utilization r = Credit_Card_Utilization r' /\
  Years_At_Current_Address r = Years_At_Current_Address r' /\
  Dependents r = Dependents r' /\ Housing r = Housing r'.

(** Two rows that agree on every column but the two that lines
    113-235 neither read nor write, [Housing_Payment] and
    [Credit_Score_Category]. *)
Definition same_but_late_columns (r r' : Row) : Prop :=
  r' = set_Credit_Score_Category (Credit_Score_Category r')
         (set_Housing_Payment (Housing_Payment r') r).

(** ** The console summary (line 262) *)

Module Summary.

(** The number of rows of a column that carry a given category. *)
Definition count (label : string) (col : list (option string)) : nat :=
  length (filter (fun c => c = Some label) col).

(** [Series.value_counts()] on a categorical column followed by
    [sort_index()]: one count per category, listed in the order of the
    categories; a row without category is not counted. *)
Definition value_counts (categories : list string)
    (col : list (option string)) : list (string * nat) :=
  map (fun label => (label, count label col)) categories.

Definition total (counts : list (string * nat)) : nat :=
  foldr (fun lc acc => (lc.2 + acc)%nat) 0%nat counts.

(** [normalize=True]: every count divided by the sum of the counts. *)
Definition normalize (counts : list (string * nat)) : list (string * Q) :=
  map (fun lc => (lc.1, inject_Z (Z.of_nat lc.2)
                        / inject_Z (Z.of_nat (total counts)))) counts.

(** [df['Credit_Score_Category'].value_counts(normalize=True).sort_index()]. *)
Definition credit_score_distribution (df : list Row) : list (string * Q) :=
  normalize (value_counts score_labels (map Credit_Score_Category df)).

Definition Qsum (l : list Q) : Q := foldr Qplus 0 l.

End Summary.

(** * Properties *)

(** ** Comparisons and clipping *)

Module NumFacts.

Lemma Qltb_lt a b : Qltb a b = true <-> a < b.
Proof.
  unfold Qltb. rewrite negb_true_iff.
  destruct (Qle_bool b a) eqn:E.
  - apply Qle_bool_iff in E. split; [discriminate | intros H; lra].
  - split; [intros _ | reflexivity].
    destruct (Qlt_le_dec a b) as [H | H]; [exact H |].
    apply Qle_bool_iff in H. congruence.
Qed.

Lemma Qltb_ge a b : Qltb a b = false <-> b <= a.
Proof. unfold Qltb. rewrite negb_false_iff. apply Qle_bool_iff. Qed.

Lemma Qleb_le a b : Qleb a b = true <-> a <= b.
Proof. apply Qle_bool_iff. Qed.

Lemma Qleb_gt a b : Qleb a b = false <-> b < a.
Proof.
  unfold Qleb. destruct (Qle_bool a b) eqn:E.
  - apply Qle_bool_iff in E. split; [discriminate | intros H; lra].
  - split; [intros _ | reflexivity].
    destruct (Qlt_le_dec b a) as [H | H]; [exact H |].
    apply Qle_bool_iff in H. congruence.
Qed.

Lemma Qeqb_eq a b : Qeqb a b = true <-> a == b.
Proof. apply Qeq_bool_iff. Qed.

Lemma Qeqb_neq a b : Qeqb a b = false <-> ~ a == b.
Proof.
  unfold Qeqb. destruct (Qeq_bool a b) eqn:E.
  - apply Qeq_bool_iff in E. split; [discriminate | tauto].
  - split; [| reflexivity]. intros _ H. apply Qeq_bool_iff in H. congruence.
Qed.

Lemma clip_bounds lower upper x :
  lower <= upper -> lower <= clip lower upper x /\ clip lower upper x <= upper.
Proof.
  intros H. unfold clip. split.
  - apply Q.min_glb; [apply Q.le_max_r | exact H].
  - apply Q.le_min_r.
Qed.

Lemma clip_id lower upper x :
  lower <= x -> x <= upper -> clip lower upper x == x.
Proof.
  intros H1 H2. unfold clip.
  rewrite Q.max_l by exact H1. apply Q.min_l. exact H2.
Qed.

Lemma clipZ_bounds lower upper x :
  (lower <= upper)%Z -> (lower <= clipZ lower upper x <= upper)%Z.
Proof. unfold clipZ. lia. Qed.

End NumFacts.

Import NumFacts.

(** Turns every boolean comparison among the hypotheses into the
    order it decides. *)
Ltac order_of_tests :=
  repeat match goal with
    | H : Qltb _ _ = true |- _ => apply Qltb_lt in H
    | H : Qltb _ _ = false |- _ => apply Qltb_ge in H
    | H : Qleb _ _ = true |- _ => apply Qleb_le in H
    | H : Qleb _ _ = false |- _ => apply Qleb_gt in H
    | H : Qeqb _ _ = true |- _ => apply Qeqb_eq in H
    | H : Qeqb _ _ = false |- _ => apply Qeqb_neq in H
    end.

(** Splits on the next boolean comparison the goal tests. *)
Ltac split_test :=
  match goal with
  | |- context [Qltb ?a ?b] => destruct (Qltb a b) eqn:?
  | |- context [Qleb ?a ?b] => destruct (Qleb a b) eqn:?
  | |- context [Qeqb ?a ?b] => destruct (Qeqb a b) eqn:?
  end.

(** ** The score categories *)


(** Decides a boolean comparison of the goal from the hypotheses. *)
Ltac settle_test :=
  match goal with
  | |- context [Qltb ?a ?b] =>
      first [ replace (Qltb a b) with true by (symmetry; apply Qltb_lt; lra)
            | replace (Qltb a b) with false by (symmetry; apply Qltb_ge; lra) ]
  | |- context [Qleb ?a ?b] =>
      first [ replace (Qleb a b) with true by (symmetry; apply Qleb_le; lra)
            | replace (Qleb a b) with false by (symmetry; apply Qleb_gt; lra) ]
  end.

Section Categories.

Lemma searchsorted_left_nil x : Pandas.searchsorted_left [] x = 0%nat.
Proof. reflexivity. Qed.

Lemma searchsorted_left_cons b bins x :
  Pandas.searchsorted_left (b :: bins) x
  = ((if Qltb b x then 1 else 0) + Pandas.searchsorted_left bins x)%nat.
Proof.
  unfold Pandas.searchsorted_left. rewrite filter_cons.
  destruct (Qltb b x); case_decide; simpl; congruence.
Qed.

(** The intervals [pd.cut] builds from [score_bins] are closed on the
    right; only the first one is closed on both sides. *)
Lemma category_intervals (s : Q) :
  (300 <= s <= 580 -> Credit_Score_Category_of s = Some "Very Poor") /\
  (580 < s <= 670 -> Credit_Score_Category_of s = Some "Fair") /\
  (670 < s <= 740 -> Credit_Score_Category_of s = Some "Good") /\
  (740 < s <= 800 -> Credit_Score_Category_of s = Some "Very Good") /\
  (800 < s <= 850 -> Credit_Score_Category_of s = Some "Excellent").
Proof.
  unfold Credit_Score_Category_of, Pandas.cut, score_bins, score_labels.
  rewrite !searchsorted_left_cons, searchsorted_left_nil.
  repeat split; intros [Hlo Hhi];
    repeat settle_test; repeat split_test; order_of_tests; try lra; reflexivity.
Qed.

(** Outside of [[300, 850]] a score has no category. *)
Lemma category_outside (s : Q) :
  s < 300 \/ 850 < s -> Credit_Score_Category_of s = None.
Proof.
  unfold Credit_Score_Category_of, Pandas.cut, score_bins, score_labels.
  rewrite !searchsorted_left_cons, searchsorted_left_nil.
  intros [H | H]; repeat settle_test; repeat split_test; order_of_tests; try lra; reflexivity.
Qed.

End Categories.

(** C1, as the code runs: the category of the final scores 579.9, 580.0,
    850.0 and 300.0 is "Very Poor", "Very Poor", "Excellent" and "Very
    Poor".  The score 580.0 is the closed right end of the first
    interval of [pd.cut], so it is binned "Very Poor" and not "Fair". *)
Theorem category_at_the_edges :
  Credit_Score_Category_of (5799 # 10) = Some "Very Poor" /\
  Credit_Score_Category_of 580 = Some "Very Poor" /\
  Credit_Score_Category_of 850 = Some "Excellent" /\
  Credit_Score_Category_of 300 = Some "Very Poor".
Proof. repeat split; vm_compute; reflexivity. Qed.

(** ** Weighted choices *)

Section Choices.

Lemma searchsorted_right_nil u : searchsorted_right [] u = 0%nat.
Proof. reflexivity. Qed.

Lemma searchsorted_right_cons b a u :
  searchsorted_right (b :: a) u
  = ((if Qleb b u then 1 else 0) + searchsorted_right a u)%nat.
Proof.
  unfold searchsorted_right. rewrite filter_cons.
  destruct (Qleb b u); case_decide; simpl; congruence.
Qed.

(** A choice between two elements with weights [w] and [1 - w]: the
    first one exactly when the sample is below [w]. *)
Lemma choice_two {A : Type} (x y : A) (w w' u : Q) :
  0 < w -> 0 < w' -> w + w' == 1 -> sample_ok u ->
  choice [x; y] [w; w'] u = Some (if Qltb u w then x else y).
Proof.
  intros Hw Hw' Hsum [H0 H1]. unfold choice, cdf. cbn [cumsum_from last].
  cbn [default from_option map]. unfold id.
  rewrite !searchsorted_right_cons, searchsorted_right_nil.
  assert (Ht : 0 + w + w' == 1) by lra.
  assert (E1 : (0 + w) / (0 + w + w') == w) by (rewrite Ht; field).
  assert (E2 : (0 + w + w') / (0 + w + w') == 1) by (rewrite Ht; field).
  destruct (Qltb u w) eqn:T;
    destruct (Qleb ((0 + w) / (0 + w + w')) u) eqn:T1;
    destruct (Qleb ((0 + w + w') / (0 + w + w')) u) eqn:T2;
    order_of_tests; try reflexivity; exfalso;
    rewrite ?E1 in T1; rewrite ?E2 in T2; lra.
Qed.

(** The position a sample selects among the five score bands. *)
Lemma choice_score_band (bands : list Q) (u : Q) :
  sample_ok u ->
  choice bands score_weights u
  = bands !! (if Qltb u (16 # 100) then 0
              else if Qltb u (34 # 100) then 1
              else if Qltb u (55 # 100) then 2
              else if Qltb u (80 # 100) then 3 else 4)%nat.
Proof.
  intros [H0 H1]. unfold choice.
  set (c := cdf score_weights). vm_compute in c. subst c.
  rewrite !searchsorted_right_cons, searchsorted_right_nil.
  f_equal.
  repeat split_test; order_of_tests; try lra; reflexivity.
Qed.

End Choices.

(** ** Payment history *)

(** C7: with a sample of [[0, 1)] the function returns one of the four
    labels; it is "Poor" when the bankruptcy flag is "Yes", otherwise
    "Poor" when the delinquency count exceeds 3, and otherwise the
    weighted choice of the band of the score: Excellent/Good with
    weights 0.7/0.3 from 750 on, Good/Average with weights 0.4/0.6 in
    [[650, 750)], Average/Poor with weights 0.3/0.7 below 650. *)
Theorem payment_history_rule (pick score : Q) (delinquency : Z)
    (bankruptcy : string) :
  sample_ok pick ->
  exists label,
    simulate_payment_history pick score delinquency bankruptcy = Some label /\
    label ∈ ["Excellent"; "Good"; "Average"; "Poor"] /\
    (bankruptcy = "Yes" -> label = "Poor") /\
    (bankruptcy <> "Yes" -> (3 < delinquency)%Z -> label = "Poor") /\
    (bankruptcy <> "Yes" -> (delinquency <= 3)%Z ->
       (750 <= score ->
          label = if Qltb pick (7 # 10) then "Excellent" else "Good") /\
       (650 <= score /\ score < 750 ->
          label = if Qltb pick (4 # 10) then "Good" else "Average") /\
       (score < 650 ->
          label = if Qltb pick (3 # 10) then "Average" else "Poor")).
Proof.
  intros Hpick. unfold simulate_payment_history.
  destruct (decide (bankruptcy = "Yes")) as [Hb | Hb].
  { exists "Poor". repeat split; try done; set_solver. }
  destruct (3 <? delinquency)%Z eqn:Hd.
  { apply Z.ltb_lt in Hd. exists "Poor".
    repeat split; first [done | intros; lia | set_solver]. }
  apply Z.ltb_ge in Hd.
  destruct (Qleb 750 score) eqn:T750; [| destruct (Qleb 650 score) eqn:T650;
    [destruct (Qltb score 750) eqn:T750' |]]; cbn [andb];
    rewrite choice_two by (try exact Hpick; lra);
    eexists; (split; [reflexivity |]); order_of_tests;
    (split; [destruct (Qltb pick _); set_solver |]);
    (split; [intros; congruence |]);
    (split; [intros; lia |]);
    intros _ _; repeat split; intros; try reflexivity; exfalso; lra.
Qed.

(** The rule at a concrete row: no bankruptcy, one delinquency, a score
    of 739 and a sample of 0.5. *)
Lemma payment_history_rule_witness :
  sample_ok (1 # 2) /\
  exists label,
    simulate_payment_history (1 # 2) 739 1 "No" = Some label /\
    label ∈ ["Excellent"; "Good"; "Average"; "Poor"] /\
    ("No" = "Yes" -> label = "Poor") /\
    ("No" <> "Yes" -> (3 < 1)%Z -> label = "Poor") /\
    ("No" <> "Yes" -> (1 <= 3)%Z ->
       (750 <= 739 ->
          label = if Qltb (1 # 2) (7 # 10) then "Excellent" else "Good") /\
       (650 <= 739 /\ 739 < 750 ->
          label = if Qltb (1 # 2) (4 # 10) then "Good" else "Average") /\
       (739 < 650 ->
          label = if Qltb (1 # 2) (3 # 10) then "Average" else "Poor")).
Proof.
  assert (H : sample_ok (1 # 2)) by (unfold sample_ok; lra).
  split; [exact H | exact (payment_history_rule (1 # 2) 739 1 "No" H)].
Defined.

(** ** The score adjustments *)

Section Adjustments.

Lemma adjust_by_bankruptcy_none now score :
  adjust_credit_score_by_bankruptcy now score None = score.
Proof. reflexivity. Qed.

(** The three branches of the bankruptcy adjustment, by the age of the
    bankruptcy in years. *)
Lemma adjust_by_bankruptcy_some now score date :
  let years := years_since now date in
  (years < 7 ->
     adjust_credit_score_by_bankruptcy now score (Some date) = score - 50) /\
  (7 <= years /\ years < 10 ->
     adjust_credit_score_by_bankruptcy now score (Some date) = score - 20) /\
  (10 <= years ->
     adjust_credit_score_by_bankruptcy now score (Some date) = score - 5).
Proof.
  intros years. unfold adjust_credit_score_by_bankruptcy. fold years.
  repeat split; intros H; repeat settle_test; reflexivity.
Qed.

Lemma adjust_by_utilization_cases score utilization :
  (75 # 100 < utilization ->
     adjust_credit_score_by_utilization score utilization = score - 25) /\
  (5 # 10 < utilization /\ utilization <= 75 # 100 ->
     adjust_credit_score_by_utilization score utilization = score - 10) /\
  (utilization <= 5 # 10 ->
     adjust_credit_score_by_utilization score utilization = score).
Proof.
  unfold adjust_credit_score_by_utilization.
  repeat split; intros H; repeat settle_test; reflexivity.
Qed.

(** The bankruptcy is found [days_ago] days back when less than a day
    passes between the two readings of the clock. *)
Lemma days_since_generated (d : Draws) :
  (now_generate d <= now_adjust d)%Z ->
  (now_adjust d - now_generate d < Datetime.microseconds_per_day)%Z ->
  Datetime.days
    (now_adjust d - (now_generate d - Datetime.timedelta (days_ago_draw d)))
  = days_ago_draw d.
Proof.
  intros H1 H2. unfold Datetime.days, Datetime.timedelta in *.
  unfold Datetime.microseconds_per_day in *.
  symmetry. apply (Z.div_unique _ _ _ (now_adjust d - now_generate d)); lia.
Qed.

End Adjustments.

(** ** Debt composition *)



(** ** Writes through [df.loc] *)

Section Loc.

Variable get : Row -> Q.
Variable set : Q -> Row -> Row.

Lemma loc_set_length idx vals (df : list Row) :
  length (loc_set set idx vals df) = length df.
Proof.
  unfold loc_set. revert df.
  induction (zip idx vals) as [| iv l IH]; intros df; [reflexivity |].
  cbn [foldl]. rewrite IH. apply length_alter.
Qed.



(** Whatever the labels, a relation that the setter preserves on the
    right still holds row by row after the write. *)
Lemma loc_set_related (R : Row -> Row -> Prop) idx vals (l df : list Row) :
  (forall r r' v, R r r' -> R r (set v r')) ->
  Forall2 R l df -> Forall2 R l (loc_set set idx vals df).
Proof.
  intros Hset. unfold loc_set. revert df.
  induction (zip idx vals) as [| iv vs IH]; intros df Hdf; [exact Hdf |].
  cbn [foldl]. apply IH. apply Forall2_alter_r; [exact Hdf |].
  intros x y _ _ Hxy. apply Hset, Hxy.
Qed.


End Loc.

(** ** Outlier injection *)

Section Outliers.

Lemma same_but_refl (r : Row) : same_but_income_and_total_debt r r.
Proof. destruct r. reflexivity. Qed.

Lemma same_but_set_Income r r' v :
  same_but_income_and_total_debt r r' ->
  same_but_income_and_total_debt r (set_Income v r').
Proof.
  unfold same_but_income_and_total_debt. intros H.
  destruct r, r'. cbn in *. injection H as -> -> -> -> -> -> -> -> -> -> -> ->
    -> -> -> -> -> -> -> -> -> -> -> -> -> -> -> ->. reflexivity.
Qed.

Lemma same_but_set_Total_Debt r r' v :
  same_but_income_and_total_debt r r' ->
  same_but_income_and_total_debt r (set_Total_Debt v r').
Proof.
  unfold same_but_income_and_total_debt. intros H.
  destruct r, r'. cbn in *. injection H as -> -> -> -> -> -> -> -> -> -> -> ->
    -> -> -> -> -> -> -> -> -> -> -> -> -> -> -> ->. reflexivity.
Qed.

(** The columns two such rows share. *)
Lemma same_but_columns r r' :
  same_but_income_and_total_debt r r' ->
  Customer_ID r' = Customer_ID r /\ Name r' = Name r /\ Age r' = Age r /\
  Gender r' = Gender r /\ Region r' = Region r /\
  Education_Level r' = Education_Level r /\
  Employment_Status r' = Employment_Status r /\
  Credit_Score r' = Credit_Score r /\ Existing_Debt r' = Existing_Debt r /\
  Credit_Card_Debt r' = Credit_Card_Debt r /\
  Mortgage_Debt r' = Mortgage_Debt r /\ Auto_Loan_Debt r' = Auto_Loan_Debt r /\
  Loan_Balance r' = Loan_Balance r /\
  Credit_Inquiries_Last_6_Months r' = Credit_Inquiries_Last_6_Months r /\
  Bankruptcy_History r' = Bankruptcy_History r /\
  Bankruptcy_Date r' = Bankruptcy_Date r /\
  Delinquency_History r' = Delinquency_History r /\
  Credit_Card_Utilization r' = Credit_Card_Utilization r /\
  Years_At_Current_Address r' = Years_At_Current_Address r /\
  Dependents r' = Dependents r /\ Payment_History r' = Payment_History r /\
  Account_Age r' = Account_Age r /\
  Years_With_Employer r' = Years_With_Employer r /\
  Housing r' = Housing r /\ Housing_Payment r' = Housing_Payment r /\
  DTI r' = DTI r /\ Credit_History_Length r' = Credit_History_Length r /\
  Credit_Score_Category r' = Credit_Score_Category r.
Proof.
  unfold same_but_income_and_total_debt. intros ->. repeat split.
Qed.


(** Whatever the three arrays hold, lines 233-235 touch no column but
    [Income] and [Total_Debt] and keep the number of rows. *)
Lemma inject_outliers_frame (t : TableDraws) (df : list Row) :
  Forall2 same_but_income_and_total_debt df (inject_outliers t df).
Proof.
  unfold inject_outliers, loc_imul, choice_no_replace, choice_many.
  apply loc_set_related; [apply same_but_set_Total_Debt |].
  apply loc_set_related; [apply same_but_set_Income |].
  apply Forall_Forall2_diag, Forall_forall. intros r _. apply same_but_refl.
Qed.

End Outliers.




(** ** One row through the run *)

Section Rows.

(** What lines 113-230 leave in a row, column by column. *)
Lemma before_outliers_inv bands d r r1 :
  before_outliers bands d r = Some r1 ->
  exists v y s p,
    derive_income d r = Some v /\
    generate_years_with_employer d (Age r) = Some y /\
    choice bands score_weights (band_pick d) = Some s /\
    let income := clip 20000 500000 v in
    let existing := income * existing_rate d in
    let date := generate_bankruptcy_date d (Bankruptcy_History r) in
    let at_204 :=
      adjust_credit_score_by_bankruptcy (now_adjust d)
        (s - existing / income * 50) date in
    let history := Z.max 0 (Age r - 18 - generate_account_age d (Age r)) in
    simulate_payment_history (payment_pick d) at_204
      (Delinquency_History r) (Bankruptcy_History r) = Some p /\
    Income r1 = income /\ Existing_Debt r1 = existing /\
    Bankruptcy_Date r1 = date /\ Payment_History r1 = p /\
    Age r1 = Age r /\ Account_Age r1 = generate_account_age d (Age r) /\
    Credit_History_Length r1 = history /\
    Credit_Score r1
    = adjust_credit_score_by_utilization
        (at_204 + inject_Z history * (5 # 10)) (Credit_Card_Utilization r) /\
    Years_With_Employer r1 = y /\
    Housing r1 = Housing r /\ Region r1 = Region r /\
    Dependents r1 = Dependents r /\
    Bankruptcy_History r1 = Bankruptcy_History r /\
    Delinquency_History r1 = Delinquency_History r /\
    Credit_Card_Utilization r1 = Credit_Card_Utilization r.
Proof.
  unfold before_outliers, income_step, employer_step, base_score_step,
    payment_history_step.
  intros H.
  destruct (derive_income d r) as [v |] eqn:Hv; [| discriminate].
  cbn [mbind option_bind] in H.
  destruct (generate_years_with_employer d _) as [y |] eqn:Hy;
    [| discriminate].
  cbn [mbind option_bind] in H.
  destruct (choice bands score_weights (band_pick d)) as [s |] eqn:Hs;
    [| discriminate].
  cbn [mbind option_bind] in H.
  destruct (simulate_payment_history _ _ _ _) as [p |] eqn:Hp;
    [| discriminate].
  cbn [mbind option_bind] in H. injection H as <-.
  exists v, y, s, p. cbn in Hy, Hp |- *. repeat split; assumption.
Qed.

(** What lines 238-255 leave in a row. *)
Lemma after_outliers_inv d r2 o :
  after_outliers d r2 = Some o ->
  Age o = clipZ 18 70 (Age r2) /\
  Income o = clip 20000 400000 (Income r2) /\
  Credit_Score o = clip 300 850 (Credit_Score r2) /\
  Existing_Debt o = clip 0 (Income o * (5 # 10)) (Existing_Debt r2) /\
  Credit_Score_Category o = Credit_Score_Category_of (Credit_Score o) /\
  Credit_History_Length o = Credit_History_Length r2 /\
  Payment_History o = Payment_History r2 /\
  Bankruptcy_History o = Bankruptcy_History r2 /\
  Mortgage_Debt o = Mortgage_Debt r2 /\ Housing o = Housing r2.
Proof.
  unfold after_outliers, housing_payment_step. intros H.
  destruct (generate_housing_payment _ _ _ _ _) as [h |]; [| discriminate].
  cbn [mbind option_bind] in H. injection H as <-.
  repeat split.
Qed.

End Rows.

(** ** The table through the run *)

Section Table.

(** Row [i] of the final table comes from row [i] of the base table:
    lines 113-230 with the draws of that row, then the outlier
    injection, which may change [Income] and [Total_Debt] only, then
    lines 238-255. *)
Lemma generate_row t base out i o :
  generate t base = Some out -> out !! i = Some o ->
  exists d r r1 r2,
    base !! i = Some (d, r) /\
    before_outliers (band_values t) d r = Some r1 /\
    same_but_income_and_total_debt r1 r2 /\
    after_outliers d r2 = Some o.
Proof.
  unfold generate. intros H Ho.
  destruct (mapM _ base) as [df |] eqn:Hdf; [| discriminate].
  cbn [mbind option_bind] in H.
  apply mapM_Some_1 in Hdf. apply mapM_Some_1 in H.
  destruct (Forall2_lookup_r _ _ _ _ _ H Ho) as ([d r2] & Hz & Hafter).
  apply lookup_zip_Some in Hz as [Hd Hr2].
  apply list_lookup_fmap_Some in Hd as ([d' r] & -> & Hbase). cbn in Hafter.
  destruct (Forall2_lookup_r _ _ _ _ _ (inject_outliers_frame t df) Hr2)
    as (r1 & Hr1 & Hsame).
  pose proof (Forall2_lookup_lr _ _ _ _ _ _ Hdf Hbase Hr1) as Hbefore.
  exists d', r, r1, r2. repeat split; assumption.
Qed.

Lemma generate_length t base out :
  generate t base = Some out -> length out = length base.
Proof.
  unfold generate. intros H.
  destruct (mapM _ base) as [df |] eqn:Hdf; [| discriminate].
  cbn [mbind option_bind] in H.
  apply mapM_Some_1, Forall2_length in Hdf.
  apply mapM_Some_1, Forall2_length in H.
  pose proof (Forall2_length _ _ _ (inject_outliers_frame t df)) as Hinj.
  rewrite length_zip, length_fmap in H. lia.
Qed.

End Table.

(** C3: in every row of the table the run hands to the writer, whatever
    was drawn, the credit score lies in [[300, 850]], the age in
    [[18, 70]], the income in [[20000, 400000]], and the existing debt
    between 0 and half of the income. *)
Theorem final_bounds t base out i o :
  generate t base = Some out -> out !! i = Some o ->
  300 <= Credit_Score o /\ Credit_Score o <= 850 /\
  (18 <= Age o <= 70)%Z /\
  20000 <= Income o /\ Income o <= 400000 /\
  0 <= Existing_Debt o /\ Existing_Debt o <= (5 # 10) * Income o.
Proof.
  intros H Ho.
  destruct (generate_row _ _ _ _ _ H Ho) as (d & r & r1 & r2 & _ & _ & _ & Ha).
  apply after_outliers_inv in Ha as (HA & HI & HS & HE & _).
  destruct (clip_bounds 300 850 (Credit_Score r2)) as [S1 S2]; [lra |].
  destruct (clip_bounds 20000 400000 (Income r2)) as [I1 I2]; [lra |].
  rewrite <- HS in S1, S2. rewrite <- HI in I1, I2.
  destruct (clip_bounds 0 (Income o * (5 # 10)) (Existing_Debt r2))
    as [E1 E2]; [lra |].
  rewrite <- HE in E1, E2.
  pose proof (clipZ_bounds 18 70 (Age r2) ltac:(lia)) as A. rewrite <- HA in A.
  repeat split; try assumption; try lia; lra.
Qed.

(** The bounds on the first row of a run over two rows. *)
Lemma final_bounds_witness :
  exists out o,
    generate Sample.no_outliers Sample.small_table = Some out /\
    out !! 0%nat = Some o /\
    300 <= Credit_Score o /\ Credit_Score o <= 850 /\
    (18 <= Age o <= 70)%Z /\
    20000 <= Income o /\ Income o <= 400000 /\
    0 <= Existing_Debt o /\ Existing_Debt o <= (5 # 10) * Income o.
Proof.
  destruct (generate Sample.no_outliers Sample.small_table) as [out |] eqn:H;
    [| vm_compute in H; discriminate].
  destruct (out !! 0%nat) as [o |] eqn:Ho.
  - exists out, o. split; [reflexivity |]. split; [exact Ho |].
    exact (final_bounds Sample.no_outliers Sample.small_table out 0 o H Ho).
  - apply generate_length in H. apply lookup_ge_None in Ho.
    rewrite H in Ho. cbn in Ho. lia.
Defined.

(** ** The credit score of a final row *)

Section Score.




(** The older the bankruptcy, the smaller the penalty: of two dated
    bankruptcies the older one leaves the higher score. *)
Lemma bankruptcy_penalty_antitone now score recent older :
  years_since now recent <= years_since now older ->
  adjust_credit_score_by_bankruptcy now score (Some recent)
  <= adjust_credit_score_by_bankruptcy now score (Some older).
Proof.
  intros H. unfold adjust_credit_score_by_bankruptcy.
  repeat split_test; cbn [andb]; order_of_tests; lra.
Qed.

(** A bankruptcy date exists exactly for the rows flagged "Yes". *)
Lemma bankruptcy_date_iff d bankruptcy_history :
  generate_bankruptcy_date d bankruptcy_history = None
  <-> bankruptcy_history <> "Yes".
Proof.
  unfold generate_bankruptcy_date. case_decide; split; intros; congruence.
Qed.

(** The income of line 119 is positive, so the first-pass DTI of line
    161 is the rate drawn at line 160. *)
Lemma first_pass_dti v rate :
  clip 20000 500000 v * rate / clip 20000 500000 v == rate.
Proof.
  destruct (clip_bounds 20000 500000 v) as [H _]; [lra |].
  field. intros E. rewrite E in H. lra.
Qed.

End Score.




(** ** Payment history and the final score *)


(** ** The lookup tables and the base sampler *)

Section Lookups.

Lemma Exists_equiv {A : Type} (P Q : A -> Prop) (l : list A) :
  (forall x, P x <-> Q x) -> Exists P l <-> Exists Q l.
Proof.
  intros H. split; intros E; (eapply Exists_impl; [exact E |]);
    intros x; apply H.
Qed.

(** The keys of the three income tables are the labels the base
    sampler draws from. *)
Lemma income_adjustment_keys k :
  is_Some (income_adjustment !! k) <-> k ∈ regions.
Proof.
  unfold regions. rewrite !elem_of_cons. split.
  - intros [v Hv]. apply elem_of_list_to_map_2 in Hv.
    rewrite !elem_of_cons in Hv.
    destruct Hv as [[= -> _] | [[= -> _] | [[= -> _] | [[= -> _] | Hv]]]];
      auto 6.
    apply not_elem_of_nil in Hv. destruct Hv.
  - intros [-> | [-> | [-> | [-> | H]]]]; try (eexists; reflexivity).
    apply not_elem_of_nil in H. destruct H.
Qed.

Lemma regional_cost_of_living_keys k :
  is_Some (regional_cost_of_living !! k) <-> k ∈ regions.
Proof.
  unfold regions. rewrite !elem_of_cons. split.
  - intros [v Hv]. apply elem_of_list_to_map_2 in Hv.
    rewrite !elem_of_cons in Hv.
    destruct Hv as [[= -> _] | [[= -> _] | [[= -> _] | [[= -> _] | Hv]]]];
      auto 6.
    apply not_elem_of_nil in Hv. destruct Hv.
  - intros [-> | [-> | [-> | [-> | H]]]]; try (eexists; reflexivity).
    apply not_elem_of_nil in H. destruct H.
Qed.

Lemma education_income_multiplier_keys k :
  is_Some (education_income_multiplier !! k) <-> k ∈ education_levels.
Proof.
  unfold education_levels. rewrite !elem_of_cons. split.
  - intros [v Hv]. apply elem_of_list_to_map_2 in Hv.
    rewrite !elem_of_cons in Hv.
    destruct Hv as [[= -> _] | [[= -> _] | [[= -> _] | [[= -> _]
      | [[= -> _] | [[= -> _] | Hv]]]]]]; auto 8.
    apply not_elem_of_nil in Hv. destruct Hv.
  - intros [-> | [-> | [-> | [-> | [-> | [-> | H]]]]]];
      try (eexists; reflexivity).
    apply not_elem_of_nil in H. destruct H.
Qed.

Lemma employment_income_multiplier_keys k :
  is_Some (employment_income_multiplier !! k) <-> k ∈ employment_statuses.
Proof.
  unfold employment_statuses. rewrite !elem_of_cons. split.
  - intros [v Hv]. apply elem_of_list_to_map_2 in Hv.
    rewrite !elem_of_cons in Hv.
    destruct Hv as [[= -> _] | [[= -> _] | [[= -> _] | [[= -> _]
      | [[= -> _] | Hv]]]]]; auto 7.
    apply not_elem_of_nil in Hv. destruct Hv.
  - intros [-> | [-> | [-> | [-> | [-> | H]]]]]; try (eexists; reflexivity).
    apply not_elem_of_nil in H. destruct H.
Qed.

(** The lambda of line 113 raises exactly when one of its three
    lookups misses. *)
Lemma derive_income_none d r :
  derive_income d r = None <->
  income_adjustment !! Region r = None \/
  education_income_multiplier !! Education_Level r = None \/
  employment_income_multiplier !! Employment_Status r = None.
Proof.
  unfold derive_income.
  destruct (income_adjustment !! Region r) as [a |];
    destruct (education_income_multiplier !! Education_Level r) as [e |];
    destruct (employment_income_multiplier !! Employment_Status r) as [m |];
    cbn; split; intros H; try discriminate; auto;
    destruct H as [H | [H | H]]; discriminate.
Qed.

Lemma income_step_none d r :
  income_step d r = None <-> derive_income d r = None.
Proof.
  unfold income_step. destruct (derive_income d r); cbn; split; congruence.
Qed.

Lemma derive_income_sampled d r :
  from_base_sampler r -> is_Some (derive_income d r).
Proof.
  intros (Hr & He & Hm).
  apply income_adjustment_keys in Hr as [a Ha].
  apply education_income_multiplier_keys in He as [e He].
  apply employment_income_multiplier_keys in Hm as [m Hm].
  unfold derive_income. rewrite Ha, He, Hm. cbn. eauto.
Qed.

End Lookups.

(** C8: the income statement raises exactly when some row carries a
    region, an education level or an employment status that is not a
    key of its multiplier table, and then the whole run raises; the
    keys of the three tables are the labels of the base sampler, so on
    a table whose rows carry sampled labels the statement returns. *)
Theorem income_lookup_failure (t : TableDraws) (base : list (Draws * Row)) :
  (income_table_step base = None <->
   Exists (fun dr =>
             income_adjustment !! Region dr.2 = None \/
             education_income_multiplier !! Education_Level dr.2 = None \/
             employment_income_multiplier !! Employment_Status dr.2 = None)
          base) /\
  (income_table_step base = None -> generate t base = None) /\
  (forall k, income_adjustment !! k = None <-> k ∉ regions) /\
  (forall k, education_income_multiplier !! k = None <-> k ∉ education_levels) /\
  (forall k, employment_income_multiplier !! k = None
             <-> k ∉ employment_statuses) /\
  (Forall (fun dr => from_base_sampler dr.2) base ->
   is_Some (income_table_step base)).
Proof.
  assert (Hnone : income_table_step base = None <->
                  Exists (fun dr => derive_income dr.1 dr.2 = None) base).
  { unfold income_table_step. rewrite mapM_None. apply Exists_equiv.
    intros [d r]. apply income_step_none. }
  split; [| split; [| split; [| split; [| split]]]].
  - rewrite Hnone. apply Exists_equiv. intros [d r]. apply derive_income_none.
  - intros H. apply Hnone in H. unfold generate.
    replace (mapM _ base) with (@None (list Row)); [reflexivity |].
    symmetry. apply mapM_None. eapply Exists_impl; [exact H |].
    intros [d r] Hd. cbn in *. unfold before_outliers.
    apply income_step_none in Hd. rewrite Hd. reflexivity.
  - intros k. rewrite <- income_adjustment_keys, eq_None_not_Some. reflexivity.
  - intros k. rewrite <- education_income_multiplier_keys, eq_None_not_Some.
    reflexivity.
  - intros k. rewrite <- employment_income_multiplier_keys, eq_None_not_Some.
    reflexivity.
  - intros H. unfold income_table_step. apply mapM_is_Some.
    eapply Forall_impl; [exact H |]. intros [d r] Hs. cbn in *.
    destruct (derive_income_sampled d r Hs) as [v Hv].
    unfold income_step. rewrite Hv. cbn. eauto.
Qed.

(** ** The base credit score *)

(** C9: the five floats of lines 154-155 are drawn once for the table;
    every row of the column of line 153 holds one of these five
    values, so the column has at most five distinct values, and two
    rows whose samples select the same position hold the same score. *)
Theorem base_score_five_values (bands : list Q) (picks : list Q) :
  band_values_ok bands -> Forall sample_ok picks ->
  length bands = 5%nat /\
  Forall (fun s => exists v, s = Some v /\ v ∈ bands) (base_scores bands picks) /\
  (forall d r r', base_score_step bands d r = Some r' ->
                  Credit_Score r' ∈ bands) /\
  (forall base df,
     mapM (fun dr => base_score_step bands dr.1 dr.2) base = Some df ->
     Forall (fun r => Credit_Score r ∈ bands) df).
Proof.
  intros (b1 & b2 & b3 & b4 & b5 & -> & _) Hpicks.
  assert (Hstep : forall d r r',
             base_score_step [b1; b2; b3; b4; b5] d r = Some r' ->
             Credit_Score r' ∈ [b1; b2; b3; b4; b5]).
  { intros d r r'. unfold base_score_step, choice. intros H.
    destruct (_ !! _) as [s |] eqn:Hs; [| discriminate].
    cbn in H. injection H as <-. cbn. eapply list_elem_of_lookup_2, Hs. }
  split; [reflexivity |]. split; [| split; [exact Hstep |]].
  - unfold base_scores. apply Forall_fmap.
    eapply Forall_impl; [exact Hpicks |]. intros u Hu. cbn.
    rewrite (choice_score_band _ u Hu).
    repeat split_test; eexists; (split; [reflexivity |]);
      rewrite !elem_of_cons; auto 6.
  - intros base df H. apply mapM_Some_1 in H.
    apply Forall_forall. intros r' Hr'.
    apply list_elem_of_lookup_1 in Hr' as [i Hi].
    destruct (Forall2_lookup_r _ _ _ _ _ H Hi) as ([d r] & _ & Hdr).
    exact (Hstep d r r' Hdr).
Qed.

(** Three rows whose samples 0.6, 0.7 and 0.79 all select the fourth
    band receive the same base score, 749. *)
Lemma base_score_five_values_witness :
  band_values_ok Sample.bands /\
  Forall sample_ok [60 # 100; 70 # 100; 79 # 100] /\
  base_scores Sample.bands [60 # 100; 70 # 100; 79 # 100]
  = [Some 749; Some 749; Some 749] /\
  Forall (fun s => exists v, s = Some v /\ v ∈ Sample.bands)
    (base_scores Sample.bands [60 # 100; 70 # 100; 79 # 100]).
Proof.
  assert (Hb : band_values_ok Sample.bands).
  { exists 450, 600, 700, 749, 820. unfold uniform_ok.
    repeat split; try reflexivity; lra. }
  assert (Hp : Forall sample_ok [60 # 100; 70 # 100; 79 # 100]).
  { unfold sample_ok. repeat constructor; lra. }
  split; [exact Hb |]. split; [exact Hp |].
  split; [vm_compute; reflexivity |].
  apply (base_score_five_values Sample.bands _ Hb Hp).
Defined.

(** ** Credit history length *)

Section History.

(** The history length of a final row never is negative and, with an
    account age drawn as numpy promises, stays within the adult years
    of the age as it was sampled; the age of the final row is that age
    clipped. *)
Lemma history_length_bounds t base out i o :
  generate t base = Some out -> out !! i = Some o ->
  exists d r,
    base !! i = Some (d, r) /\
    Age o = clipZ 18 70 (Age r) /\
    (0 <= Credit_History_Length o)%Z /\
    (draws_ok d r -> (18 < Age r)%Z ->
     (Credit_History_Length o <= Age r - 18)%Z).
Proof.
  intros H Ho.
  destruct (generate_row _ _ _ _ _ H Ho)
    as (d & r & r1 & r2 & Hbase & Hb & Hsame & Ha).
  apply before_outliers_inv in Hb
    as (v & y & s & p & _ & _ & _ & _ & _ & _ & _ & _ & HA & _ & Hh & _).
  apply after_outliers_inv in Ha as (HA' & _ & _ & _ & _ & HH & _).
  apply same_but_columns in Hsame as (_ & _ & HA'' & Hrest).
  assert (HH' : Credit_History_Length r2 = Credit_History_Length r1)
    by (apply Hrest).
  clear Hrest.
  exists d, r. split; [exact Hbase |].
  rewrite HA', HA'', HA, HH, HH', Hh.
  split; [reflexivity |]. split; [lia |].
  intros Hd Hage. destruct Hd as (_ & _ & _ & _ & _ & _ & _ & _ & _ & _ & _ & Hacc & _).
  specialize (Hacc Hage). unfold randint_ok in Hacc.
  unfold generate_account_age, randint.
  destruct (18 <? Age r)%Z eqn:E; [| apply Z.ltb_ge in E]; lia.
Qed.

(** For a sampled age of at most 70 the bound of the history length is
    also a bound against the final age. *)
Lemma history_length_within_final_age t base out i o d r :
  generate t base = Some out -> out !! i = Some o ->
  base !! i = Some (d, r) -> draws_ok d r -> (Age r <= 70)%Z ->
  (18 < Age o)%Z -> (Credit_History_Length o <= Age o - 18)%Z.
Proof.
  intros H Ho Hbase Hd H70 H18.
  destruct (history_length_bounds _ _ _ _ _ H Ho)
    as (d' & r' & Hbase' & HA & _ & Hle).
  rewrite Hbase in Hbase'. injection Hbase' as <- <-.
  unfold clipZ in HA. specialize (Hle Hd). lia.
Qed.

End History.

(** C2, as the code runs: a customer whose sampled age is 80 and whose
    drawn account age is 0 gets a credit history length of 62 at line
    216, computed from the age 80; line 247 then clips the age to 70,
    so the final row has a history length of 62 against 70 - 18 = 52
    adult years.  The row and its draws are ones the run can meet. *)
Theorem history_length_exceeds_final_age :
  let d := Sample.draws 0 0 (60 # 100) in
  from_base_sampler Sample.elder /\ draws_ok d Sample.elder /\
  outliers_ok Sample.no_outliers 1 /\
  fmap (M := option)
    (fmap (M := list) (fun o => (Age o, Credit_History_Length o)))
    (generate Sample.no_outliers [(d, Sample.elder)])
  = Some [(70, 62)%Z] /\
  (62 > 70 - 18)%Z.
Proof.
  intros d. split; [| split; [| split; [| split]]].
  - unfold from_base_sampler, regions, education_levels, employment_statuses.
    cbn. rewrite !elem_of_cons. auto 8.
  - unfold draws_ok, randint_ok, uniform_ok, sample_ok. cbn.
    repeat split; try lia; try lra.
  - unfold outliers_ok, choice_no_replace_ok, choice_many_ok. cbn.
    repeat split; try constructor.
  - vm_compute. reflexivity.
  - lia.
Qed.

(** ** The run returns *)

Section Totality.

Lemma simulate_payment_history_succeeds pick score delinquency bankruptcy :
  sample_ok pick ->
  is_Some (simulate_payment_history pick score delinquency bankruptcy).
Proof.
  intros Hpick. unfold simulate_payment_history.
  case_decide; [eauto |].
  destruct (3 <? delinquency)%Z; [eauto |].
  destruct (Qleb 750 score); [| destruct (Qleb 650 score && Qltb score 750)];
    rewrite choice_two by (try exact Hpick; lra); eauto.
Qed.

Lemma years_with_employer_succeeds d r :
  draws_ok d r -> is_Some (generate_years_with_employer d (Age r)).
Proof.
  intros (_ & _ & Hpick & _). unfold generate_years_with_employer.
  destruct (Age r <? 30)%Z; [eauto |].
  destruct ((30 <=? Age r) && (Age r <? 50))%Z; [eauto |].
  rewrite choice_two by (try exact Hpick; lra). eauto.
Qed.

Lemma before_outliers_succeeds bands d r :
  band_values_ok bands -> from_base_sampler r -> draws_ok d r ->
  is_Some (before_outliers bands d r).
Proof.
  intros (b1 & b2 & b3 & b4 & b5 & -> & _) Hs Hd.
  destruct (derive_income_sampled d r Hs) as [v Hv].
  destruct (years_with_employer_succeeds d r Hd) as [y Hy].
  pose proof Hd as (_ & _ & _ & _ & _ & Hband & _ & _ & _ & _ & Hpay & _).
  unfold before_outliers, income_step, employer_step, base_score_step,
    payment_history_step.
  rewrite Hv. cbn [mbind option_bind]. cbn [Age set_Income]. rewrite Hy.
  cbn [mbind option_bind].
  rewrite (choice_score_band _ _ Hband).
  assert (Hpick : exists s,
             [b1; b2; b3; b4; b5]
               !! (if Qltb (band_pick d) (16 # 100) then 0
                   else if Qltb (band_pick d) (34 # 100) then 1
                   else if Qltb (band_pick d) (55 # 100) then 2
                   else if Qltb (band_pick d) (80 # 100) then 3 else 4)%nat
             = Some s)
    by (repeat split_test; eexists; reflexivity).
  destruct Hpick as [s ->]. cbn [mbind option_bind].
  match goal with
  | |- context [simulate_payment_history ?u ?a ?b ?c] =>
      destruct (simulate_payment_history_succeeds u a b c Hpay) as [label ->]
  end.
  cbn [mbind option_bind]. eauto.
Qed.

Lemma after_outliers_succeeds d r :
  Region r ∈ regions -> is_Some (after_outliers d r).
Proof.
  intros Hr. apply regional_cost_of_living_keys in Hr as [c Hc].
  unfold after_outliers, housing_payment_step, generate_housing_payment.
  case_decide; rewrite Hc; cbn; eauto.
Qed.

(** On base rows drawn by the base sampler, with draws as numpy
    promises them, no statement of the run raises. *)
Lemma generate_succeeds t base :
  band_values_ok (band_values t) ->
  Forall (fun dr => from_base_sampler dr.2 /\ draws_ok dr.1 dr.2) base ->
  is_Some (generate t base).
Proof.
  intros Hbands Hbase. unfold generate.
  assert (Hfirst : is_Some
            (mapM (fun dr => before_outliers (band_values t) dr.1 dr.2) base)).
  { apply mapM_is_Some. eapply Forall_impl; [exact Hbase |].
    intros [d r] [Hs Hd]. apply before_outliers_succeeds; assumption. }
  destruct Hfirst as [df Hdf]. rewrite Hdf. cbn [mbind option_bind].
  apply mapM_Some_1 in Hdf.
  apply mapM_is_Some, Forall_lookup. intros i [d r2] Hi.
  apply lookup_zip_Some in Hi as [_ Hr2]. cbn.
  destruct (Forall2_lookup_r _ _ _ _ _ (inject_outliers_frame t df) Hr2)
    as (r1 & Hr1 & Hsame).
  destruct (Forall2_lookup_r _ _ _ _ _ Hdf Hr1) as ([d0 r] & Hb & Hbefore).
  apply after_outliers_succeeds.
  apply same_but_columns in Hsame as (_ & _ & _ & _ & -> & _).
  apply before_outliers_inv in Hbefore
    as (v & y & s & p & _ & _ & _ & _ & _ & _ & _ & _ & _ & _ & _ & _ & _ & _
        & -> & _).
  pose proof (Forall_lookup_1 _ _ _ _ Hbase Hb) as [(Hr & _) _]. exact Hr.
Qed.

End Totality.

(** ** The payment history of a final row *)

Section Payment.

(** The label of a final row is the one [simulate_payment_history]
    returned for that row, and the bankruptcy flag it tested is the one
    the final row still carries. *)
Lemma final_row_payment_history t base out i o :
  generate t base = Some out -> out !! i = Some o ->
  exists d r score,
    base !! i = Some (d, r) /\
    simulate_payment_history (payment_pick d) score
      (Delinquency_History r) (Bankruptcy_History r)
    = Some (Payment_History o) /\
    Bankruptcy_History o = Bankruptcy_History r.
Proof.
  intros H Ho.
  destruct (generate_row _ _ _ _ _ H Ho)
    as (d & r & r1 & r2 & Hbase & Hb & Hsame & Ha).
  apply before_outliers_inv in Hb
    as (v & y & s & p & _ & _ & _ & Hp & _ & _ & _ & HP & _ & _ & _ & _ & _
        & _ & _ & _ & HB & _).
  apply after_outliers_inv in Ha as (_ & _ & _ & _ & _ & _ & HP' & HB' & _).
  apply same_but_columns in Hsame
    as (_ & _ & _ & _ & _ & _ & _ & _ & _ & _ & _ & _ & _ & _ & HB'' & _ & _
        & _ & _ & _ & HP'' & _).
  eexists d, r, _. split; [exact Hbase |].
  rewrite HP', HP'', HP, HB', HB'', HB. split; [exact Hp | reflexivity].
Qed.

(** A final row flagged "Yes" has the payment history "Poor". *)
Lemma final_row_bankrupt_is_poor t base out i o :
  generate t base = Some out -> out !! i = Some o ->
  Bankruptcy_History o = "Yes" -> Payment_History o = "Poor".
Proof.
  intros H Ho Hyes.
  destruct (final_row_payment_history _ _ _ _ _ H Ho)
    as (d & r & score & _ & Hp & HB).
  rewrite HB in Hyes. unfold simulate_payment_history in Hp.
  rewrite decide_True in Hp by exact Hyes. congruence.
Qed.

End Payment.

(** * Further properties of the run *)

(** ** Concrete runs *)

Section Runs.

Lemma owner_sampled : from_base_sampler Sample.owner.
Proof.
  unfold from_base_sampler, regions, education_levels, employment_statuses.
  cbn. rewrite !elem_of_cons. auto 8.
Qed.

Lemma tenant_sampled : from_base_sampler Sample.tenant.
Proof.
  unfold from_base_sampler, regions, education_levels, employment_statuses.
  cbn. rewrite !elem_of_cons. auto 8.
Qed.

Lemma owner_draws_ok : draws_ok (Sample.draws 100 5 (60 # 100)) Sample.owner.
Proof.
  unfold draws_ok, randint_ok, uniform_ok, sample_ok. cbn.
  repeat split; try lia; try lra.
Qed.

Lemma tenant_draws_ok : draws_ok (Sample.draws 3650 4 (20 # 100)) Sample.tenant.
Proof.
  unfold draws_ok, randint_ok, uniform_ok, sample_ok. cbn.
  repeat split; try lia; try lra.
Qed.

Lemma sample_bands_ok : band_values_ok Sample.bands.
Proof.
  exists 450, 600, 700, 749, 820. unfold uniform_ok.
  repeat split; try reflexivity; lra.
Qed.

(** The run over the two sample rows returns, and has a row at each of
    the two labels. *)
Lemma small_run (i : nat) :
  (i < 2)%nat ->
  exists out o,
    generate Sample.no_outliers Sample.small_table = Some out /\
    out !! i = Some o.
Proof.
  intros Hi.
  destruct (generate Sample.no_outliers Sample.small_table) as [out |] eqn:H;
    [| vm_compute in H; discriminate].
  destruct (out !! i) as [o |] eqn:Ho; [eauto |].
  apply generate_length in H. apply lookup_ge_None in Ho.
  rewrite H in Ho. cbn in Ho. lia.
Defined.

End Runs.

(** ** More columns of a row through the run *)

Section Frames.

(** The debts lines 182-188 leave in a row, and the columns lines
    113-230 never write. *)
Lemma before_outliers_rest bands d r r1 :
  before_outliers bands d r = Some r1 ->
  Credit_Card_Debt r1 = Income r1 * card_rate d /\
  Mortgage_Debt r1
  = (if decide (Housing r = "Own") then Income r1 * mortgage_rate d else 0) /\
  Auto_Loan_Debt r1 = Income r1 * auto_rate d /\
  Total_Debt r1
  = Existing_Debt r1 + Credit_Card_Debt r1 + Mortgage_Debt r1
    + Auto_Loan_Debt r1 /\
  DTI r1 = Total_Debt r1 / Income r1 /\
  Customer_ID r1 = Customer_ID r /\ Name r1 = Name r /\
  Gender r1 = Gender r /\ Education_Level r1 = Education_Level r /\
  Employment_Status r1 = Employment_Status r /\
  Loan_Balance r1 = Loan_Balance r /\
  Credit_Inquiries_Last_6_Months r1 = Credit_Inquiries_Last_6_Months r /\
  Years_At_Current_Address r1 = Years_At_Current_Address r.
Proof.
  unfold before_outliers, income_step, employer_step, base_score_step,
    payment_history_step.
  intros H.
  destruct (derive_income d r) as [v |]; [| discriminate].
  cbn [mbind option_bind] in H.
  destruct (generate_years_with_employer d _) as [y |]; [| discriminate].
  cbn [mbind option_bind] in H.
  destruct (choice bands score_weights (band_pick d)) as [s |];
    [| discriminate].
  cbn [mbind option_bind] in H.
  destruct (simulate_payment_history _ _ _ _) as [p |]; [| discriminate].
  cbn [mbind option_bind] in H. injection H as <-.
  cbn. repeat split.
Qed.

(** The columns lines 238-255 never write. *)
Lemma after_outliers_rest d r2 o :
  after_outliers d r2 = Some o ->
  Credit_Card_Debt o = Credit_Card_Debt r2 /\
  Auto_Loan_Debt o = Auto_Loan_Debt r2 /\
  Total_Debt o = Total_Debt r2 /\ DTI o = DTI r2 /\
  Bankruptcy_Date o = Bankruptcy_Date r2 /\
  Account_Age o = Account_Age r2 /\
  Years_With_Employer o = Years_With_Employer r2 /\
  Customer_ID o = Customer_ID r2 /\ Name o = Name r2 /\
  Gender o = Gender r2 /\ Region o = Region r2 /\
  Education_Level o = Education_Level r2 /\
  Employment_Status o = Employment_Status r2 /\
  Loan_Balance o = Loan_Balance r2 /\
  Credit_Inquiries_Last_6_Months o = Credit_Inquiries_Last_6_Months r2 /\
  Delinquency_History o = Delinquency_History r2 /\
  Credit_Card_Utilization o = Credit_Card_Utilization r2 /\
  Years_At_Current_Address o = Years_At_Current_Address r2 /\
  Dependents o = Dependents r2 /\
  generate_housing_payment d (Housing r2) (Income r2) (Region r2)
    (Dependents r2) = Some (Housing_Payment o).
Proof.
  unfold after_outliers, housing_payment_step. intros H.
  destruct (generate_housing_payment _ _ _ _ _) as [h |]; [| discriminate].
  cbn [mbind option_bind] in H. injection H as <-.
  repeat split.
Qed.

End Frames.
